(** * cobra.core.configuration: the global [Configuration] object

    A shallow embedding of [src/cobra/core/configuration.py].

    - Python numbers are the built-in real number types: [int] as [Z] and
      [float] as an IEEE-754 binary64 value ([spec_float]), compared the
      way CPython compares them.
    - A method is a function in a state-and-exception monad over the
      object it is called on ([self]) and the records written to the
      module's logger.  A raised exception keeps every mutation made
      before it, as in Python.
    - [assert] is modelled with assertions enabled (the interpreter's
      default mode).
    - The [Singleton] metaclass lives in [cobra.core.singleton]; it is
      modelled over a heap of objects so that references can alias. *)

From Stdlib Require Import ZArith String Ascii List Bool Lia Relations.
From Stdlib Require Import Floats.SpecFloat.
Import ListNotations.

Local Open Scope string_scope.
Local Open Scope Z_scope.

(** ** Python values *)

(** The real numbers a bound or a tolerance can hold. *)
Inductive Number : Type :=
| PyInt (z : Z)
| PyFloat (f : spec_float).

(** The float literals of the source, as binary64 values
    ([1e-07] is [0x1.ad7f29abcaf48p-24], [1000.0] is [0x1.f4p+9]). *)
Definition float_1e_07 : spec_float := S754_finite false 0x1ad7f29abcaf48 (-76).
Definition float_1000 : spec_float := S754_finite false 0x1f400000000000 (-43).
Definition float_neg_1000 : spec_float := S754_finite true 0x1f400000000000 (-43).

(** Comparison of an [int] with a [float]: CPython compares the exact
    mathematical values; a NaN is unordered with everything. *)
Definition compare_int_float (z : Z) (f : spec_float) : option comparison :=
  match f with
  | S754_nan => None
  | S754_infinity s => Some (if s then Gt else Lt)
  | S754_zero _ => Some (z ?= 0)
  | S754_finite s m e =>
      let sm := if s then Z.neg m else Z.pos m in
      Some (if 0 <=? e then z ?= sm * 2 ^ e else z * 2 ^ (- e) ?= sm)
  end.

Definition num_compare (a b : Number) : option comparison :=
  match a, b with
  | PyInt x, PyInt y => Some (x ?= y)
  | PyFloat x, PyFloat y => SFcompare x y
  | PyInt x, PyFloat y => compare_int_float x y
  | PyFloat x, PyInt y => option_map CompOpp (compare_int_float y x)
  end.

(** [a <= b] *)
Definition py_le (a b : Number) : bool :=
  match num_compare a b with
  | Some Lt | Some Eq => true
  | _ => false
  end.

(** [a > b] *)
Definition py_gt (a b : Number) : bool :=
  match num_compare a b with
  | Some Gt => true
  | _ => false
  end.

(** Exceptions, and what evaluating an expression ends in. *)
Inductive Exception : Type :=
| SolverNotFound (message : string)
| AssertionError
| KeyError (key : string)
| TypeError (message : string)
| OtherException (class_name : string) (message : string).

Inductive Outcome (A : Type) : Type :=
| Returned (a : A)
| Raised (e : Exception).
Arguments Returned {A} a.
Arguments Raised {A} e.

(** A module object: an instance of [types.ModuleType] or of a subclass. *)
Record ModuleObject : Type := {
  module_str : Outcome string;  (* what [str(module)] does *)
  module_attrs : list string    (* the names [hasattr] answers for *)
}.

(** An object of any other class; its [__str__] may raise. *)
Record InstanceObject : Type := {
  instance_str : Outcome string;
  instance_attrs : list string
}.

(** The values the [solver] property sees. *)
Inductive PyObject : Type :=
| PyNone
| PyStr (s : string)
| PyModule (m : ModuleObject)
| PyInstance (o : InstanceObject).

(** [str(value)], as the f-string of the error message formats it: it
    returns a string, or raises what the object's own conversion raises. *)
Definition py_str (value : PyObject) : Outcome string :=
  match value with
  | PyNone => Returned "None"
  | PyStr s => Returned s
  | PyModule m => module_str m
  | PyInstance o => instance_str o
  end.

(** [hasattr(value, name)] over the attribute names an object carries. *)
Definition has_name (name : string) (attrs : list string) : bool :=
  existsb (String.eqb name) attrs.

Definition hasattr (value : PyObject) (name : string) : bool :=
  match value with
  | PyModule m => has_name name (module_attrs m)
  | PyInstance o => has_name name (instance_attrs o)
  | PyNone | PyStr _ => false
  end.

(** ** Dictionaries with string keys, in insertion order *)

Definition dict (V : Type) : Type := list (string * V).

(** [key in d] *)
Fixpoint dict_contains {V} (d : dict V) (key : string) : bool :=
  match d with
  | [] => false
  | (k, _) :: rest => if String.eqb key k then true else dict_contains rest key
  end.

(** [d[key]], [None] standing for [KeyError] *)
Fixpoint dict_getitem {V} (d : dict V) (key : string) : option V :=
  match d with
  | [] => None
  | (k, v) :: rest => if String.eqb key k then Some v else dict_getitem rest key
  end.

(** Iterating a dictionary yields its keys. *)
Definition dict_keys {V} (d : dict V) : list string := map fst d.

(** [sep.join(items)] *)
Definition join (sep : string) (items : list string) : string :=
  String.concat sep items.

(** ** The monad of methods *)

(** The attributes of a [Configuration] instance. *)
Record Configuration : Type := mkConfiguration {
  _solver : PyObject;
  tolerance : Number;
  lower_bound : option Number;
  upper_bound : option Number;
  processes : option Z
}.

(** What a method can touch: the object it is bound to and the warnings
    written to the module's logger. *)
Record World : Type := mkWorld {
  self : Configuration;
  logged : list string
}.

Definition M (A : Type) : Type := World -> Outcome A * World.

Definition ret {A} (a : A) : M A := fun w => (Returned a, w).

Definition bind {A B} (m : M A) (k : A -> M B) : M B :=
  fun w =>
    match m w with
    | (Returned a, w') => k a w'
    | (Raised e, w') => (Raised e, w')
    end.

Definition raise {A} (e : Exception) : M A := fun w => (Raised e, w).

(** Evaluating an expression that touches no attribute. *)
Definition eval {A} (o : Outcome A) : M A := fun w => (o, w).

Notation "x <- m ;; k" := (bind m (fun x => k))
  (at level 61, m at next level, right associativity).
Notation "m ;; k" := (bind m (fun _ => k))
  (at level 61, right associativity).

(** [try: body / except SolverNotFound: handler / else: orelse].  Any other
    exception leaves the statement. *)
Definition try_except_SolverNotFound {A B} (body : M A) (handler orelse : M B)
  : M B :=
  fun w =>
    match body w with
    | (Returned _, w') => orelse w'
    | (Raised (SolverNotFound _), w') => handler w'
    | (Raised e, w') => (Raised e, w')
    end.

(** [assert cond] *)
Definition py_assert (cond : bool) : M unit :=
  if cond then ret tt else raise AssertionError.

(** [logger.warning(message)] *)
Definition logger_warning (message : string) : M unit :=
  fun w => (Returned tt, mkWorld (self w) (logged w ++ [message])).

(** Attribute reads and writes on [self]. *)
Definition getattr {A} (field : Configuration -> A) : M A :=
  fun w => (Returned (field (self w)), w).

Definition update (f : Configuration -> Configuration) : M unit :=
  fun w => (Returned tt, mkWorld (f (self w)) (logged w)).

Definition set__solver (v : PyObject) : M unit :=
  update (fun c =>
    mkConfiguration v (tolerance c) (lower_bound c) (upper_bound c) (processes c)).

Definition set_tolerance (v : Number) : M unit :=
  update (fun c =>
    mkConfiguration (_solver c) v (lower_bound c) (upper_bound c) (processes c)).

Definition set_lower_bound (v : option Number) : M unit :=
  update (fun c =>
    mkConfiguration (_solver c) (tolerance c) v (upper_bound c) (processes c)).

Definition set_upper_bound (v : option Number) : M unit :=
  update (fun c =>
    mkConfiguration (_solver c) (tolerance c) (lower_bound c) v (processes c)).

Definition set_processes (v : option Z) : M unit :=
  update (fun c =>
    mkConfiguration (_solver c) (tolerance c) (lower_bound c) (upper_bound c) v).

(** ** Text helpers for the two representations *)

Definition nl : string := String (ascii_of_nat 10) EmptyString.

Fixpoint spaces (n : nat) : string :=
  match n with
  | O => EmptyString
  | S k => String " "%char (spaces k)
  end.

(** A triple-quoted literal that opens with a line break, holds the given
    [(indentation, text)] lines and closes on a line indented by 12. *)
Definition triple_quoted (lines : list (nat * string)) : string :=
  nl ++ String.concat "" (map (fun l => spaces (fst l) ++ snd l ++ nl) lines)
     ++ spaces 12.

(** A freshly allocated instance: [__init__] assigns every attribute
    before anything reads it, so the values here are never observed. *)
Definition new_object : Configuration :=
  mkConfiguration PyNone (PyInt 0) None None None.

(** ** A sample environment

    A registry as [optlang] gives it when only GLPK is installed, and
    stand-ins for the formatting helpers. *)

Definition glpk_interface : ModuleObject :=
  {| module_str := Returned "<module 'optlang.glpk_interface'>";
     module_attrs := ["Model"; "Variable"; "Constraint"; "Objective";
                      "Configuration"] |}.

Definition glpk_exact_interface : ModuleObject :=
  {| module_str := Returned "<module 'optlang.glpk_exact_interface'>";
     module_attrs := ["Model"; "Variable"; "Constraint"; "Objective";
                      "Configuration"] |}.

Definition sample_SOLVERS : dict PyObject :=
  [("glpk", PyModule glpk_interface);
   ("glpk_exact", PyModule glpk_exact_interface)].


(** An object with a [Model] attribute whose [__str__] returns an [int]:
    [str] on it raises [TypeError]. *)
Definition unprintable_instance : InstanceObject :=
  {| instance_str := Raised (TypeError "__str__ returned non-string (type int)");
     instance_attrs := ["Model"] |}.

Definition sample_interface_to_str (interface : PyObject) : Outcome string :=
  match interface with
  | PyModule m => module_str m
  | _ => Raised (TypeError "expected string or bytes-like object")
  end.

Definition sample_str_number (n : Number) : string := "<number>".

Definition float_2000 : spec_float := S754_finite false 0x1f400000000000 (-42).

Definition fresh_world : World := mkWorld new_object [].


(** ** The class *)

Section ConfigurationClass.

(** [cobra.util.solver.solvers]: the registry of solver interfaces. *)
Variable SOLVERS : dict PyObject.

(** What [os.cpu_count()] answers in this process: the number of logical
    cores, or [None] when it cannot be determined. *)
Variable cpu_count : option Z.

(** [cobra.util.solver.interface_to_str], [textwrap.dedent] and [str] on
    numbers, used by the representations only. *)
Variable interface_to_str : PyObject -> Outcome string.
Variable dedent : string -> string.
Variable str_number : Number -> string.

Definition str_optional (v : option Number) : string :=
  match v with
  | None => "None"
  | Some n => str_number n
  end.

(** [isinstance(value, types.ModuleType)] *)
Definition isinstance_ModuleType (value : PyObject) : bool :=
  match value with
  | PyModule _ => true
  | _ => false
  end.

(** *** [solver] *)

Definition solver_getter : M PyObject := getattr _solver.

(** The exception the setter prepares, from the text the f-string made of
    the value. *)
Definition not_valid_interface (text : string) : Exception :=
  SolverNotFound
    ("'" ++ text ++ "' is not a valid solver interface. "
         ++ " Please pick one from " ++ join ", " (dict_keys SOLVERS) ++ ".").

(** The exception is built first, on every call: formatting the value
    runs, and may raise, before any test. *)
Definition solver_setter (value : PyObject) : M unit :=
  text <- eval (py_str value) ;;
  interface <-
    match value with
    | PyStr name =>
        if negb (dict_contains SOLVERS name)
        then raise (not_valid_interface text)
        else match dict_getitem SOLVERS name with
             | Some interface => ret interface
             | None => raise (KeyError name)
             end
    | _ =>
        if isinstance_ModuleType value && hasattr value "Model"
        then ret value
        else raise (not_valid_interface text)
    end ;;
  set__solver interface.

(** *** [bounds] *)

Definition bounds_getter : M (option Number * option Number) :=
  lo <- getattr lower_bound ;;
  hi <- getattr upper_bound ;;
  ret (lo, hi).

Definition bounds_setter (bounds : option Number * option Number) : M unit :=
  match bounds with
  | (Some lo, Some hi) => py_assert (py_le lo hi)   (* None not in bounds *)
  | _ => ret tt
  end ;;
  set_lower_bound (fst bounds) ;;
  set_upper_bound (snd bounds).

(** *** Defaults *)

(** The [for name in ...] loop of [_set_default_solver]: [continue] on
    [SolverNotFound], [break] on success. *)
Fixpoint for_name_in (names : list string) : M unit :=
  match names with
  | [] => ret tt
  | name :: rest =>
      try_except_SolverNotFound (solver_setter (PyStr name))
        (for_name_in rest)
        (ret tt)
  end.

Definition _set_default_solver : M unit :=
  for_name_in ["gurobi"; "cplex"; "glpk"].

Definition cores_warning : string :=
  "The number of cores could not be detected - assuming one.".

Definition _set_default_processes : M unit :=
  set_processes cpu_count ;;
  p <- getattr processes ;;
  match p with
  | None => logger_warning cores_warning ;; set_processes (Some 1)
  | Some _ => ret tt
  end ;;
  p <- getattr processes ;;
  match p with
  | Some n => if 1 <? n then set_processes (Some (n - 1)) else ret tt
  | None => raise (TypeError "'>' not supported between instances of 'NoneType' and 'int'")
  end.

(** [object.__init__], reached through [super()] with the keyword
    arguments of the call: it accepts none. *)
Definition object___init__ (kwargs : dict PyObject) : M unit :=
  match kwargs with
  | [] => ret tt
  | _ :: _ =>
      raise (TypeError "object.__init__() takes exactly one argument (the instance to initialize)")
  end.

Definition __init__ (kwargs : dict PyObject) : M unit :=
  object___init__ kwargs ;;
  set__solver PyNone ;;
  set_tolerance (PyFloat float_1e_07) ;;
  set_lower_bound None ;;
  set_upper_bound None ;;
  set_processes None ;;
  bounds_setter (Some (PyFloat float_neg_1000), Some (PyFloat float_1000)) ;;
  _set_default_solver ;;
  _set_default_processes.

(** *** Representations *)

Definition __repr__ : M string :=
  interface <- solver_getter ;;
  c <- getattr (fun c => c) ;;
  fun w =>
    match interface_to_str interface with
    | Raised e => (Raised e, w)
    | Returned name =>
        (Returned (dedent (triple_quoted
           [ (12, "solver: " ++ name);
             (12, "tolerance: " ++ str_number (tolerance c));
             (12, "lower_bound: " ++ str_optional (lower_bound c));
             (12, "upper_bound: " ++ str_optional (upper_bound c));
             (12, "processes: "
                    ++ str_optional (option_map PyInt (processes c))) ]))%nat,
         w)
    end.

Definition _repr_html_ : M string :=
  interface <- solver_getter ;;
  c <- getattr (fun c => c) ;;
  fun w =>
    match interface_to_str interface with
    | Raised e => (Raised e, w)
    | Returned name =>
        (Returned (dedent (triple_quoted
           [ (12, "<table>");
             (14, "<thead>");
             (16, "<tr>");
             (18, "<td><strong>Attribute</strong></td>");
             (18, "<td><strong>Description</strong></td>");
             (18, "<td><strong>Value</strong></td>");
             (16, "</tr>");
             (14, "</thead>");
             (14, "<tbody>");
             (16, "<tr>");
             (18, "<td><pre>solver</pre></td>");
             (18, "<td>Mathematical optimization solver</td>");
             (18, "<td>" ++ name ++ "</td>");
             (16, "</tr>");
             (16, "<tr>");
             (20, "<td><pre>tolerance</pre></td>");
             (20, "<td>General solver tolerance (feasibility, integrality, etc.)</td>");
             (20, "<td>" ++ str_number (tolerance c) ++ "</td>");
             (16, "</tr>");
             (16, "<tr>");
             (20, "<td><pre>lower_bound</pre></td>");
             (20, "<td>Default reaction lower bound</td>");
             (20, "<td>" ++ str_optional (lower_bound c) ++ "</td>");
             (16, "</tr>");
             (16, "<tr>");
             (20, "<td><pre>upper_bound</pre></td>");
             (20, "<td>Default reaction upper bound</td>");
             (20, "<td>" ++ str_optional (upper_bound c) ++ "</td>");
             (16, "</tr>");
             (16, "<tr>");
             (20, "<td><pre>processes</pre></td>");
             (20, "<td>Number of parallel processes</td>");
             (20, "<td>" ++ str_optional (option_map PyInt (processes c))
                         ++ "</td>");
             (16, "</tr>");
             (14, "</tbody>");
             (12, "</table>") ]))%nat,
         w)
    end.

(** *** The operations a holder of the object can perform

    The methods and properties the class defines, and plain assignment
    to the public attributes the class docstring lists (they are
    ordinary instance attributes: no property guards them). *)

Inductive Operation : Type :=
| Get_solver
| Set_solver (value : PyObject)
| Get_bounds
| Set_bounds (bounds : option Number * option Number)
| Call___init__ (kwargs : dict PyObject)
| Call__set_default_solver
| Call__set_default_processes
| Call___repr__
| Call__repr_html_
| Assign_tolerance (v : Number)
| Assign_lower_bound (v : option Number)
| Assign_upper_bound (v : option Number)
| Assign_processes (v : option Z).

Definition run (op : Operation) : M unit :=
  match op with
  | Get_solver => solver_getter ;; ret tt
  | Set_solver value => solver_setter value
  | Get_bounds => bounds_getter ;; ret tt
  | Set_bounds bounds => bounds_setter bounds
  | Call___init__ kwargs => __init__ kwargs
  | Call__set_default_solver => _set_default_solver
  | Call__set_default_processes => _set_default_processes
  | Call___repr__ => __repr__ ;; ret tt
  | Call__repr_html_ => _repr_html_ ;; ret tt
  | Assign_tolerance v => set_tolerance v
  | Assign_lower_bound v => set_lower_bound v
  | Assign_upper_bound v => set_upper_bound v
  | Assign_processes v => set_processes v
  end.

(** Plain assignment to one of the two bound attributes. *)
Definition assigns_a_bound (op : Operation) : bool :=
  match op with
  | Assign_lower_bound _ | Assign_upper_bound _ => true
  | _ => false
  end.

(** The bounds invariant of the data model. *)
Definition bounds_ordered (c : Configuration) : Prop :=
  match lower_bound c, upper_bound c with
  | Some lo, Some hi => py_le lo hi = true
  | _, _ => True
  end.

(** *** The process: objects on a heap, and the singleton cache *)

Record Process : Type := mkProcess {
  heap : list Configuration;    (* the instances alive, by address *)
  _instances : option nat;      (* the instance cached for the class *)
  log_records : list string     (* what the logger received *)
}.

(** A process in which nothing has been constructed yet. *)
Definition boot : Process := mkProcess [] None [].

Definition deref (r : nat) (p : Process) : option Configuration :=
  nth_error (heap p) r.

Fixpoint store (r : nat) (c : Configuration) (h : list Configuration)
  : list Configuration :=
  match h, r with
  | [], _ => []
  | _ :: rest, O => c :: rest
  | x :: rest, S k => x :: store k c rest
  end.

(** Modelled from the spec: the [Singleton] metaclass, imported from
    [cobra.core.singleton], whose source this development does not have.
    Calling the class returns the existing instance if one was already
    constructed; the first call creates the instance, runs [__init__]
    on it and caches it.  A construction that raises caches nothing. *)
Definition Singleton___call__ (kwargs : dict PyObject)
  : Process -> Outcome nat * Process :=
  fun p =>
    match _instances p with
    | Some r => (Returned r, p)
    | None =>
        let r := length (heap p) in
        match __init__ kwargs (mkWorld new_object (log_records p)) with
        | (Returned _, w) =>
            (Returned r, mkProcess (heap p ++ [self w]) (Some r) (logged w))
        | (Raised e, w) =>
            (Raised e, mkProcess (heap p) None (logged w))
        end
    end.

(** Running a method with [self] bound to the object a reference points
    to ([None] when the address holds no object, which no reference
    handed out by the class does). *)
Definition call_method {A} (r : nat) (m : M A) (p : Process)
  : option (Outcome A * Process) :=
  match deref r p with
  | None => None
  | Some c =>
      let res := m (mkWorld c (log_records p)) in
      Some (fst res,
            mkProcess (store r (self (snd res)) (heap p)) (_instances p)
                      (logged (snd res)))
  end.

(** One thing a process does to the configuration. *)
Inductive step : Process -> Process -> Prop :=
| step_construct : forall kwargs p,
    step p (snd (Singleton___call__ kwargs p))
| step_operation : forall r op p o p',
    call_method r (run op) p = Some (o, p') -> step p p'.

Definition steps : Process -> Process -> Prop := clos_refl_trans Process step.

(** [needle in haystack] for strings *)
Definition Contains (haystack needle : string) : Prop :=
  exists before after, haystack = before ++ needle ++ after.

(** *** Notions used to state the properties *)

(** The interface the default-solver loop settles on: the one registered
    for the first name of the list that the registry knows. *)
Fixpoint first_registered (names : list string) : option PyObject :=
  match names with
  | [] => None
  | name :: rest =>
      match dict_getitem SOLVERS name with
      | Some interface => Some interface
      | None => first_registered rest
      end
  end.

(** The number of processes [_set_default_processes] ends with. *)
Definition default_processes : Z :=
  match cpu_count with
  | Some n => if 1 <? n then n - 1 else n
  | None => 1
  end.

(** The object a default construction leaves behind. *)
Definition constructed : Configuration :=
  mkConfiguration
    (match first_registered ["gurobi"; "cplex"; "glpk"] with
     | Some interface => interface
     | None => PyNone
     end)
    (PyFloat float_1e_07)
    (Some (PyFloat float_neg_1000)) (Some (PyFloat float_1000))
    (Some default_processes).

(** The cached reference, when there is one, points into the heap. *)
Definition cache_valid (p : Process) : Prop :=
  match _instances p with
  | Some r => (r < length (heap p))%nat
  | None => True
  end.

(** [x != x]: the float that is not a number. *)
Definition is_nan (x : Number) : bool :=
  match x with
  | PyFloat S754_nan => true
  | _ => false
  end.

(** [float("inf")] and [float("-inf")] *)
Definition float_inf : spec_float := S754_infinity false.
Definition float_neg_inf : spec_float := S754_infinity true.

(** What the class ever stores as the solver: nothing yet, an interface
    of the registry, or a module that offers a [Model]. *)
Definition solver_admissible (s : PyObject) : Prop :=
  s = PyNone \/
  (exists name, dict_getitem SOLVERS name = Some s) \/
  (isinstance_ModuleType s = true /\ hasattr s "Model" = true).

(** ** Properties *)

(** *** Numbers *)

Lemma py_gt_not_le : forall a b, py_gt a b = true -> py_le a b = false.
Proof.
  unfold py_gt, py_le. intros a b.
  destruct (num_compare a b) as [[ | | ] | ]; intros H;
    solve [reflexivity | discriminate H].
Qed.

Lemma SFcompare_antisym :
  forall x y, SFcompare y x = option_map CompOpp (SFcompare x y).
Proof.
  intros [sx | sx | | sx mx ex] [sy | sy | | sy my ey]; simpl;
    try reflexivity;
    try (destruct sx; reflexivity);
    try (destruct sy; reflexivity);
    try (destruct sx, sy; reflexivity).
  assert (K : Pos.compare_cont Eq my mx = CompOpp (Pos.compare_cont Eq mx my))
    by (symmetry; apply (Pos.compare_cont_antisym mx my Eq)).
  rewrite (Z.compare_antisym ex ey).
  destruct sx, sy; simpl; try reflexivity;
    destruct (ex ?= ey); simpl; try reflexivity;
    f_equal; rewrite ?CompOpp_involutive; try reflexivity.
  - exact (Pos.compare_cont_antisym my mx Eq).
  - exact K.
Qed.

(** On two floats, [a > b] is the IEEE comparison [b < a] and [a <= b] is
    the IEEE [<=]. *)
Lemma py_gt_floats : forall x y, py_gt (PyFloat x) (PyFloat y) = SFltb y x.
Proof.
  intros x y. unfold py_gt, SFltb. simpl.
  rewrite (SFcompare_antisym x y).
  destruct (SFcompare x y) as [[ | | ] | ]; reflexivity.
Qed.

Lemma py_le_floats : forall x y, py_le (PyFloat x) (PyFloat y) = SFleb x y.
Proof. reflexivity. Qed.

Lemma py_le_ints : forall x y, py_le (PyInt x) (PyInt y) = (x <=? y).
Proof.
  intros x y. unfold py_le, Z.leb. simpl. destruct (x ?= y); reflexivity.
Qed.

(** A NaN bound is neither [<=] nor [>] anything. *)
Lemma nan_unordered :
  forall b, py_le (PyFloat S754_nan) b = false /\ py_gt (PyFloat S754_nan) b = false.
Proof.
  intros [z | f]; unfold py_le, py_gt; simpl.
  - split; reflexivity.
  - split; reflexivity.
Qed.

(** Mixed comparisons are exact, as in CPython. *)
Example int_float_comparisons :
  py_le (PyInt (-1000)) (PyFloat float_1000) = true /\
  py_gt (PyInt 1001) (PyFloat float_1000) = true /\
  py_le (PyFloat float_1000) (PyInt 1000) = true /\
  py_gt (PyFloat float_1000) (PyInt 1000) = false /\
  py_gt (PyFloat float_1e_07) (PyInt 0) = true /\
  py_le (PyFloat float_1e_07) (PyInt 0) = false /\
  py_gt (PyInt (2 ^ 53 + 1)) (PyFloat (S754_finite false (2 ^ 52) 1)) = true.
Proof. repeat split; reflexivity. Qed.

Lemma default_bounds_ordered :
  py_le (PyFloat float_neg_1000) (PyFloat float_1000) = true.
Proof. reflexivity. Qed.

Lemma float_literals_are_binary64 :
  valid_binary 53 1024 float_1e_07 = true /\
  valid_binary 53 1024 float_1000 = true /\
  valid_binary 53 1024 float_neg_1000 = true.
Proof. repeat split; reflexivity. Qed.

(** *** Dictionaries and strings *)

Lemma dict_contains_keys :
  forall {V} (d : dict V) key, dict_contains d key = true <-> In key (dict_keys d).
Proof.
  intros V d key. induction d as [ | [k v] rest IH]; simpl.
  - split; [discriminate | intros []].
  - destruct (String.eqb key k) eqn:E.
    + apply String.eqb_eq in E. subst k. split; auto.
    + apply String.eqb_neq in E. rewrite IH. split.
      * auto.
      * intros [H | H]; [congruence | assumption].
Qed.

Lemma dict_getitem_contains :
  forall {V} (d : dict V) key,
    dict_contains d key = true -> exists v, dict_getitem d key = Some v.
Proof.
  intros V d key. induction d as [ | [k v] rest IH]; simpl.
  - discriminate.
  - destruct (String.eqb key k); eauto.
Qed.

Lemma dict_getitem_absent :
  forall {V} (d : dict V) key,
    dict_contains d key = false -> dict_getitem d key = None.
Proof.
  intros V d key. induction d as [ | [k v] rest IH]; simpl.
  - reflexivity.
  - destruct (String.eqb key k); [discriminate | exact IH].
Qed.

Lemma append_assoc : forall a b c : string, (a ++ b) ++ c = a ++ b ++ c.
Proof.
  induction a as [ | ch a IH]; intros b c; simpl.
  - reflexivity.
  - now rewrite IH.
Qed.

Lemma append_nil_r : forall a : string, a ++ "" = a.
Proof.
  induction a as [ | ch a IH]; simpl; [reflexivity | now rewrite IH].
Qed.

Lemma Contains_refl : forall s, Contains s s.
Proof. intros s. exists "", "". simpl. now rewrite append_nil_r. Qed.

Lemma Contains_append_l :
  forall pre s needle, Contains s needle -> Contains (pre ++ s) needle.
Proof.
  intros pre s needle (b & a & ->). exists (pre ++ b), a.
  now rewrite append_assoc.
Qed.

Lemma Contains_append_r :
  forall s post needle, Contains s needle -> Contains (s ++ post) needle.
Proof.
  intros s post needle (b & a & ->). exists b, (a ++ post).
  now rewrite !append_assoc.
Qed.

(** Every item of a joined list appears in the result. *)
Lemma join_contains :
  forall sep items item, In item items -> Contains (join sep items) item.
Proof.
  intros sep items item. unfold join.
  induction items as [ | x rest IH]; intros Hin.
  - destruct Hin.
  - destruct rest as [ | y rest'].
    + destruct Hin as [-> | []]. simpl. apply Contains_refl.
    + change (String.concat sep (x :: y :: rest'))
        with (x ++ sep ++ String.concat sep (y :: rest')).
      destruct Hin as [-> | Hin].
      * apply Contains_append_r, Contains_refl.
      * apply Contains_append_l, Contains_append_l, IH, Hin.
Qed.

(** *** The [bounds] property *)

(** C1: for every pair [(lo, hi)] of optional numbers with [lo <= hi], or
    with an element that is [None], assigning [bounds = (lo, hi)] succeeds;
    afterwards the [bounds] getter returns exactly [(lo, hi)], the
    attribute [lower_bound] is [lo] and [upper_bound] is [hi]. *)
Theorem bounds_setter_accepts_ordered_pair :
  forall (w : World) (lo hi : option Number),
    match lo, hi with
    | Some a, Some b => py_le a b = true
    | _, _ => True
    end ->
    exists w',
      bounds_setter (lo, hi) w = (Returned tt, w') /\
      bounds_getter w' = (Returned (lo, hi), w') /\
      getattr lower_bound w' = (Returned lo, w') /\
      getattr upper_bound w' = (Returned hi, w').
Proof.
  intros w lo hi Hle.
  unfold bounds_setter, bounds_getter, bind, py_assert, getattr,
    set_lower_bound, set_upper_bound, update, ret.
  destruct lo as [a | ], hi as [b | ]; simpl in *;
    try rewrite Hle; simpl; eexists; repeat split.
Qed.

(** C2: for every pair [(lo, hi)] of numbers with [lo > hi], assigning
    [bounds = (lo, hi)] raises [AssertionError] and updates nothing: the
    object is left exactly as it was, so [lower_bound] and [upper_bound]
    keep their prior values. *)
Theorem bounds_setter_rejects_inverted_pair :
  forall (w : World) (lo hi : Number),
    py_gt lo hi = true ->
    bounds_setter (Some lo, Some hi) w = (Raised AssertionError, w).
Proof.
  intros w lo hi Hgt. apply py_gt_not_le in Hgt.
  unfold bounds_setter, bind, py_assert. rewrite Hgt. reflexivity.
Qed.

(** The assertion is on [<=] itself: a pair that is not [<=] (an inverted
    one, or one with a NaN) is rejected before any write. *)
Lemma bounds_setter_asserts_le :
  forall (w : World) (lo hi : Number),
    py_le lo hi = false ->
    bounds_setter (Some lo, Some hi) w = (Raised AssertionError, w).
Proof.
  intros w lo hi Hle.
  unfold bounds_setter, bind, py_assert. rewrite Hle. reflexivity.
Qed.

(** *** The [solver] property *)

(** C3: for every string [n] that is a key of the solver registry,
    assigning [solver = n] succeeds, and the getter then returns exactly
    the interface the registry maps [n] to. *)
Theorem solver_setter_resolves_registered_name :
  forall (w : World) (n : string),
    In n (dict_keys SOLVERS) ->
    exists interface w',
      dict_getitem SOLVERS n = Some interface /\
      solver_setter (PyStr n) w = (Returned tt, w') /\
      solver_getter w' = (Returned interface, w').
Proof.
  intros w n Hkey. apply dict_contains_keys in Hkey.
  destruct (dict_getitem_contains SOLVERS n Hkey) as [interface Hget].
  exists interface. unfold solver_setter, bind.
  rewrite Hkey, Hget. simpl. eexists. repeat split.
Qed.

(** C4: for every string that is not a key of the solver registry,
    assigning it to [solver] raises [SolverNotFound]; the message names
    the rejected value and lists every name of the registry (it ends with
    the names joined by a comma and a space). *)
Theorem solver_setter_rejects_unregistered_name :
  forall (w : World) (s : string),
    ~ In s (dict_keys SOLVERS) ->
    exists message,
      solver_setter (PyStr s) w = (Raised (SolverNotFound message), w) /\
      message = "'" ++ s ++ "' is not a valid solver interface. "
                    ++ " Please pick one from "
                    ++ join ", " (dict_keys SOLVERS) ++ "." /\
      Contains message s /\
      forall name, In name (dict_keys SOLVERS) -> Contains message name.
Proof.
  intros w s Hkey.
  assert (Hc : dict_contains SOLVERS s = false).
  { destruct (dict_contains SOLVERS s) eqn:E; [ | reflexivity].
    apply dict_contains_keys in E. contradiction. }
  eexists. split; [ | split; [reflexivity | split]].
  - unfold solver_setter, bind. rewrite Hc. reflexivity.
  - apply (Contains_append_l "'"), Contains_append_r, Contains_refl.
  - intros name Hin.
    apply (Contains_append_l "'"), Contains_append_l.
    apply (Contains_append_l "' is not a valid solver interface. ").
    apply (Contains_append_l " Please pick one from ").
    apply Contains_append_r, join_contains, Hin.
Qed.

(** What the setter does on each kind of value: the conversion to a
    string comes first, then the tests. *)
Lemma solver_setter_cases :
  forall (value : PyObject) (w : World),
    solver_setter value w =
    match py_str value with
    | Raised e => (Raised e, w)
    | Returned text =>
        match value with
        | PyStr name =>
            match dict_getitem SOLVERS name with
            | Some interface => set__solver interface w
            | None => (Raised (not_valid_interface text), w)
            end
        | PyModule m =>
            if hasattr value "Model" then set__solver value w
            else (Raised (not_valid_interface text), w)
        | PyNone | PyInstance _ => (Raised (not_valid_interface text), w)
        end
    end.
Proof.
  intros value w. unfold solver_setter, bind, eval.
  destruct value as [ | name | m | o]; simpl.
  - reflexivity.
  - destruct (dict_contains SOLVERS name) eqn:E; simpl.
    + destruct (dict_getitem_contains SOLVERS name E) as [i ->]. reflexivity.
    + rewrite (dict_getitem_absent SOLVERS name E). reflexivity.
  - destruct (module_str m) as [text | e]; [ | reflexivity].
    destruct (has_name "Model" (module_attrs m)); reflexivity.
  - destruct (instance_str o) as [text | e]; reflexivity.
Qed.


(** The tests, for a value whose conversion returned. *)
Lemma solver_setter_str_returns :
  forall (value : PyObject) (w : World) (text : string),
    py_str value = Returned text ->
    solver_setter value w =
    match value with
    | PyStr name =>
        match dict_getitem SOLVERS name with
        | Some interface => set__solver interface w
        | None => (Raised (not_valid_interface text), w)
        end
    | PyModule m =>
        if hasattr value "Model" then set__solver value w
        else (Raised (not_valid_interface text), w)
    | PyNone | PyInstance _ => (Raised (not_valid_interface text), w)
    end.
Proof.
  intros value w text H. rewrite solver_setter_cases, H. reflexivity.
Qed.

(** What a call of the setter can end in. *)
Lemma solver_setter_outcomes :
  forall (value : PyObject) (w : World),
    (exists interface,
        solver_setter value w = set__solver interface w /\
        ((exists name, value = PyStr name /\
                       dict_getitem SOLVERS name = Some interface) \/
         (interface = value /\ isinstance_ModuleType value = true /\
          hasattr value "Model" = true))) \/
    (exists e,
        solver_setter value w = (Raised e, w) /\
        (forall text, py_str value = Returned text ->
                      e = not_valid_interface text) /\
        (forall e0, py_str value = Raised e0 -> e = e0)).
Proof.
  intros value w. rewrite solver_setter_cases.
  destruct (py_str value) as [text | e0] eqn:Hstr.
  - assert (Hfail : exists e,
               (Raised (A:=unit) (not_valid_interface text), w) = (Raised e, w) /\
               (forall text0, Returned text = Returned text0 ->
                              e = not_valid_interface text0) /\
               (forall e0, Returned text = Raised e0 -> e = e0)).
    { eexists. split; [reflexivity | split].
      - intros text0 E. inversion E. reflexivity.
      - intros e0 E. discriminate E. }
    destruct value as [ | name | m | o].
    + right. exact Hfail.
    + destruct (dict_getitem SOLVERS name) as [i | ] eqn:E.
      * left. exists i. split; [reflexivity | ]. left. exists name. auto.
      * right. exact Hfail.
    + destruct (hasattr (PyModule m) "Model") eqn:E.
      * left. exists (PyModule m). split; [reflexivity | ]. right. auto.
      * right. exact Hfail.
    + right. exact Hfail.
  - right. exists e0. split; [reflexivity | split].
    + intros text E. discriminate E.
    + intros e1 E. inversion E. reflexivity.
Qed.

(** C10: whenever the [solver] setter raises, nothing was assigned: the
    stored solver, [tolerance], [lower_bound], [upper_bound] and
    [processes], and the log, are exactly as before the call.  The
    exception is the [SolverNotFound] built for the value when
    [str(value)] returns, and what [str(value)] raised otherwise. *)
Theorem solver_setter_failure_changes_nothing :
  forall (value : PyObject) (w w' : World) (e : Exception),
    solver_setter value w = (Raised e, w') ->
    w' = w /\
    (forall text, py_str value = Returned text ->
                  e = not_valid_interface text) /\
    (forall e0, py_str value = Raised e0 -> e = e0).
Proof.
  intros value w w' e Hraise.
  destruct (solver_setter_outcomes value w)
    as [(interface & Hok & _) | (e' & Hfail & Htext & Hexn)].
  - rewrite Hok in Hraise. discriminate Hraise.
  - rewrite Hfail in Hraise. inversion Hraise. subst. auto.
Qed.


(** *** Construction *)

(** One turn of the loop: a registered name is stored and the loop is left;
    an unknown name changes nothing and the loop goes on with the rest. *)
Lemma for_name_in_turn :
  forall (name : string) (rest : list string) (w : World),
    for_name_in (name :: rest) w =
    match dict_getitem SOLVERS name with
    | Some interface => set__solver interface w
    | None => for_name_in rest w
    end.
Proof.
  intros name rest w. simpl. unfold try_except_SolverNotFound.
  rewrite solver_setter_cases.
  destruct (dict_getitem SOLVERS name); reflexivity.
Qed.

Lemma for_name_in_result :
  forall (names : list string) (w : World),
    for_name_in names w =
    match first_registered names with
    | Some interface => set__solver interface w
    | None => (Returned tt, w)
    end.
Proof.
  induction names as [ | name rest IH]; intros w.
  - reflexivity.
  - rewrite for_name_in_turn. simpl.
    destruct (dict_getitem SOLVERS name) as [interface | ].
    + reflexivity.
    + apply IH.
Qed.

(** The loop never lets an exception out, whatever the registry holds. *)
Lemma _set_default_solver_returns :
  forall w, exists w', _set_default_solver w = (Returned tt, w').
Proof.
  intros w. unfold _set_default_solver. rewrite for_name_in_result.
  destruct (first_registered _); eexists; reflexivity.
Qed.

(** An exception other than [SolverNotFound] is not caught by the
    [try] statement of the loop. *)
Lemma try_except_only_SolverNotFound :
  forall {A B} (body : M A) (handler orelse : M B) w w' e,
    body w = (Raised e, w') ->
    (forall message, e <> SolverNotFound message) ->
    try_except_SolverNotFound body handler orelse w = (Raised e, w').
Proof.
  intros A B body handler orelse w w' e Hbody Hne.
  unfold try_except_SolverNotFound. rewrite Hbody.
  destruct e; try reflexivity. exfalso. exact (Hne message eq_refl).
Qed.

Lemma _set_default_processes_result :
  forall w,
    _set_default_processes w =
    (Returned tt,
     mkWorld
       (mkConfiguration (_solver (self w)) (tolerance (self w))
          (lower_bound (self w)) (upper_bound (self w))
          (Some default_processes))
       (match cpu_count with
        | Some _ => logged w
        | None => logged w ++ [cores_warning]
        end)).
Proof.
  intros [c l]. unfold _set_default_processes, default_processes, bind,
    set_processes, update, getattr, logger_warning, ret. simpl.
  destruct cpu_count as [n | ]; simpl.
  - destruct (1 <? n); reflexivity.
  - reflexivity.
Qed.

Lemma __init___result :
  forall w,
    __init__ [] w =
    (Returned tt,
     mkWorld constructed
       (match cpu_count with
        | Some _ => logged w
        | None => logged w ++ [cores_warning]
        end)).
Proof.
  intros [c l]. unfold __init__, constructed.
  remember (first_registered ["gurobi"; "cplex"; "glpk"]) as found eqn:Efound.
  unfold bind at 1. simpl object___init__. unfold ret at 1.
  unfold bind at 1. unfold set__solver at 1, update at 1. simpl self.
  unfold bind at 1. unfold set_tolerance at 1, update at 1. simpl.
  unfold bind at 1. unfold set_lower_bound at 1, update at 1. simpl.
  unfold bind at 1. unfold set_upper_bound at 1, update at 1. simpl.
  unfold bind at 1. unfold set_processes at 1, update at 1. simpl.
  unfold bind at 1. unfold bounds_setter, bind, py_assert, set_lower_bound,
    set_upper_bound, update, ret. simpl.
  unfold _set_default_solver. rewrite for_name_in_result, <- Efound.
  destruct found as [interface | ];
    unfold set__solver, update; simpl;
    rewrite _set_default_processes_result; reflexivity.
Qed.

(** C6: a default construction (no keyword argument), in a process whose
    core count is undetermined or at least one, returns normally and
    leaves [tolerance == 1e-07], [bounds == (-1000.0, 1000.0)] and
    [processes >= 1]: [N - 1] when [N > 1] cores were detected, [1] when one
    core was detected or when detection failed.  The warning is logged in
    that last case, and only then. *)
Theorem default_construction :
  forall (w : World),
    match cpu_count with
    | Some n => 1 <= n
    | None => True
    end ->
    exists w',
      __init__ [] w = (Returned tt, w') /\
      tolerance (self w') = PyFloat float_1e_07 /\
      bounds_getter w' =
        (Returned (Some (PyFloat float_neg_1000), Some (PyFloat float_1000)), w') /\
      (exists p, processes (self w') = Some p /\ 1 <= p) /\
      (forall n, cpu_count = Some n -> 1 < n ->
                 processes (self w') = Some (n - 1)) /\
      (cpu_count = Some 1 \/ cpu_count = None ->
                 processes (self w') = Some 1) /\
      (cpu_count = None -> logged w' = (logged w ++ [cores_warning])%list) /\
      (cpu_count <> None -> logged w' = logged w).
Proof.
  intros w Hcores. eexists. split; [apply __init___result | ].
  simpl. unfold default_processes. repeat split.
  - destruct cpu_count as [n | ].
    + destruct (1 <? n) eqn:E.
      * apply Z.ltb_lt in E. exists (n - 1). split; [reflexivity | lia].
      * exists n. split; [reflexivity | exact Hcores].
    + exists 1. split; [reflexivity | lia].
  - intros n -> Hn. apply Z.ltb_lt in Hn. rewrite Hn. reflexivity.
  - intros [-> | ->]; reflexivity.
  - intros ->. reflexivity.
  - intros Hsome. destruct cpu_count; [reflexivity | contradiction].
Qed.

(** C7: the default solver is chosen by assigning ["gurobi"], ["cplex"],
    ["glpk"] in that order and stopping at the first assignment that
    succeeds.  From any state [_set_default_solver] returns normally; the
    stored solver becomes the interface registered for the first of the
    three names the registry knows, also when a later name is registered
    too, nothing else changes, and when none is registered the stored
    solver is left as it was.  In a construction that is [None]: the
    construction returns normally with the solver unset. *)
Theorem default_solver_selection :
  forall (w : World),
    let chosen (unset : PyObject) :=
      match dict_getitem SOLVERS "gurobi" with
      | Some gurobi => gurobi
      | None =>
          match dict_getitem SOLVERS "cplex" with
          | Some cplex => cplex
          | None =>
              match dict_getitem SOLVERS "glpk" with
              | Some glpk => glpk
              | None => unset
              end
          end
      end in
    (exists w',
        _set_default_solver w = (Returned tt, w') /\
        _solver (self w') = chosen (_solver (self w)) /\
        tolerance (self w') = tolerance (self w) /\
        lower_bound (self w') = lower_bound (self w) /\
        upper_bound (self w') = upper_bound (self w) /\
        processes (self w') = processes (self w) /\
        logged w' = logged w) /\
    (exists w',
        __init__ [] w = (Returned tt, w') /\
        solver_getter w' = (Returned (chosen PyNone), w')).
Proof.
  intros w chosen. subst chosen. split.
  - unfold _set_default_solver. rewrite for_name_in_result. simpl.
    destruct (dict_getitem SOLVERS "gurobi") as [i | ];
      [ | destruct (dict_getitem SOLVERS "cplex") as [i | ];
          [ | destruct (dict_getitem SOLVERS "glpk") as [i | ] ] ];
      eexists; split; try reflexivity; simpl; repeat split.
  - eexists. split; [apply __init___result | ].
    unfold solver_getter, getattr, constructed. simpl.
    destruct (dict_getitem SOLVERS "gurobi") as [i | ];
      [ | destruct (dict_getitem SOLVERS "cplex") as [i | ];
          [ | destruct (dict_getitem SOLVERS "glpk") as [i | ] ] ];
      reflexivity.
Qed.

(** *** The bounds invariant *)

Lemma bounds_setter_keeps_order :
  forall bounds w,
    bounds_ordered (self w) ->
    bounds_ordered (self (snd (bounds_setter bounds w))).
Proof.
  intros [[lo | ] [hi | ]] w Hinv;
    unfold bounds_setter, bind, py_assert, set_lower_bound, set_upper_bound,
      update, ret, bounds_ordered in *; simpl; try exact I.
  destruct (py_le lo hi) eqn:E; simpl; [exact E | exact Hinv].
Qed.

Lemma solver_setter_keeps_bounds :
  forall value w,
    lower_bound (self (snd (solver_setter value w))) = lower_bound (self w) /\
    upper_bound (self (snd (solver_setter value w))) = upper_bound (self w).
Proof.
  intros value w.
  destruct (solver_setter_outcomes value w)
    as [(interface & -> & _) | (e & -> & _)]; split; reflexivity.
Qed.

Lemma representations_change_nothing :
  forall w, snd (__repr__ w) = w /\ snd (_repr_html_ w) = w.
Proof.
  intros w. unfold __repr__, _repr_html_, bind, solver_getter, getattr. simpl.
  destruct (interface_to_str (_solver (self w))); split; reflexivity.
Qed.

(** Every operation other than a plain assignment to [lower_bound] or
    [upper_bound] keeps the bounds ordered, whether it returns or raises. *)
Lemma run_keeps_order :
  forall op w,
    assigns_a_bound op = false ->
    bounds_ordered (self w) ->
    bounds_ordered (self (snd (run op w))).
Proof.
  intros op w Hop Hinv. destruct op; simpl in Hop; try discriminate Hop;
    simpl run.
  - exact Hinv.
  - unfold bounds_ordered.
    destruct (solver_setter_keeps_bounds value w) as [-> ->]. exact Hinv.
  - exact Hinv.
  - apply bounds_setter_keeps_order, Hinv.
  - destruct kwargs as [ | kv kwargs].
    + rewrite __init___result. simpl. exact default_bounds_ordered.
    + exact Hinv.
  - unfold _set_default_solver. rewrite for_name_in_result.
    destruct (first_registered _); exact Hinv.
  - rewrite _set_default_processes_result. exact Hinv.
  - unfold bind. destruct (representations_change_nothing w) as [E _].
    destruct (__repr__ w) as [[s | e] w']; simpl in *; subst w'; exact Hinv.
  - unfold bind. destruct (representations_change_nothing w) as [_ E].
    destruct (_repr_html_ w) as [[s | e] w']; simpl in *; subst w'; exact Hinv.
  - exact Hinv.
  - exact Hinv.
Qed.

(** C8, as the code has it: whenever [lower_bound] and [upper_bound] are
    both numbers, [lower_bound <= upper_bound].  A construction establishes
    it; every method and property of the class, and assignment to
    [tolerance] or [processes], keeps it whether the operation returns or
    raises; and the [bounds] setter raises [AssertionError], assigning
    nothing, on a pair that is not ordered.  (Plain assignment to the
    attribute [lower_bound] or [upper_bound] is outside this statement.) *)
Theorem bounds_order_invariant :
  (forall w,
      fst (__init__ [] w) = Returned tt /\
      bounds_ordered (self (snd (__init__ [] w)))) /\
  (forall op w,
      assigns_a_bound op = false ->
      bounds_ordered (self w) ->
      bounds_ordered (self (snd (run op w)))) /\
  (forall w lo hi,
      py_le lo hi = false ->
      bounds_setter (Some lo, Some hi) w = (Raised AssertionError, w)).
Proof.
  split; [ | split].
  - intros w. rewrite __init___result. simpl.
    split; [reflexivity | exact default_bounds_ordered].
  - exact run_keeps_order.
  - intros w lo hi. apply bounds_setter_asserts_le.
Qed.

(** *** The singleton *)

Lemma store_length :
  forall r c h, length (store r c h) = length h.
Proof.
  intros r c h. revert r.
  induction h as [ | x rest IH]; intros [ | k]; simpl; auto.
Qed.

Lemma store_lookup :
  forall r c h, (r < length h)%nat -> nth_error (store r c h) r = Some c.
Proof.
  intros r c h. revert r.
  induction h as [ | x rest IH]; intros [ | k] Hlt; simpl in *; try lia.
  - reflexivity.
  - apply IH. lia.
Qed.

Lemma Singleton___call___cached :
  forall kwargs p r,
    _instances p = Some r -> Singleton___call__ kwargs p = (Returned r, p).
Proof.
  intros kwargs p r H. unfold Singleton___call__. rewrite H. reflexivity.
Qed.

(** Once an instance is cached, every step keeps it cached and alive. *)
Lemma step_keeps_instance :
  forall p q r,
    step p q ->
    _instances p = Some r -> (r < length (heap p))%nat ->
    _instances q = Some r /\ (r < length (heap q))%nat.
Proof.
  intros p q r Hstep Hcache Hlive. destruct Hstep as [kwargs p | r' op p o p' Hcall].
  - rewrite (Singleton___call___cached kwargs p r Hcache). simpl. auto.
  - unfold call_method in Hcall. destruct (deref r' p); [ | discriminate].
    inversion Hcall; subst; simpl. rewrite store_length. auto.
Qed.

Lemma steps_keep_instance :
  forall p q r,
    steps p q ->
    _instances p = Some r -> (r < length (heap p))%nat ->
    _instances q = Some r /\ (r < length (heap q))%nat.
Proof.
  intros p q r Hsteps. induction Hsteps as [p q Hstep | p | p q s _ IH1 _ IH2].
  - apply step_keeps_instance, Hstep.
  - auto.
  - intros Hc Hl. destruct (IH1 Hc Hl) as [Hc' Hl']. apply IH2; assumption.
Qed.

Lemma step_keeps_cache_valid :
  forall p q, step p q -> cache_valid p -> cache_valid q.
Proof.
  intros p q Hstep Hvalid. unfold cache_valid in *.
  destruct (_instances p) as [r | ] eqn:Hcache.
  - destruct (step_keeps_instance p q r Hstep Hcache Hvalid) as [-> Hl]. exact Hl.
  - destruct Hstep as [kwargs p | r' op p o p' Hcall].
    + unfold Singleton___call__. rewrite Hcache.
      destruct (__init__ kwargs _) as [[u | e] w]; simpl.
      * rewrite length_app. simpl. lia.
      * exact I.
    + unfold call_method in Hcall. destruct (deref r' p); [ | discriminate].
      inversion Hcall; subst; simpl. rewrite Hcache. exact I.
Qed.

Lemma reachable_cache_valid :
  forall p q, steps p q -> cache_valid p -> cache_valid q.
Proof.
  intros p q Hsteps. induction Hsteps as [p q Hstep | p | p q s _ IH1 _ IH2].
  - apply step_keeps_cache_valid, Hstep.
  - auto.
  - auto.
Qed.

(** C9: the configuration is a singleton of the process.  At any point of
    a process a call [Configuration()] returns a reference [r]; every later
    call, whatever was done in between, returns the same [r] and constructs
    nothing; [r] points to a live object, and an operation performed
    through it changes the very object every other call's reference reads. *)
Theorem singleton_returns_shared_instance :
  forall p,
    steps boot p ->
    exists r p1,
      Singleton___call__ [] p = (Returned r, p1) /\
      forall p2,
        steps p1 p2 ->
        Singleton___call__ [] p2 = (Returned r, p2) /\
        exists c,
          deref r p2 = Some c /\
          forall op, exists o p3,
            call_method r (run op) p2 = Some (o, p3) /\
            o = fst (run op (mkWorld c (log_records p2))) /\
            Singleton___call__ [] p3 = (Returned r, p3) /\
            deref r p3 = Some (self (snd (run op (mkWorld c (log_records p2))))).
Proof.
  intros p Hreach.
  assert (Hvalid : cache_valid p) by (apply (reachable_cache_valid boot p Hreach); exact I).
  assert (Hfirst : exists r p1,
             Singleton___call__ [] p = (Returned r, p1) /\
             _instances p1 = Some r /\ (r < length (heap p1))%nat).
  { unfold cache_valid in Hvalid. unfold Singleton___call__.
    destruct (_instances p) as [r | ] eqn:Hcache.
    - exists r, p. auto.
    - rewrite __init___result. eexists. eexists. split; [reflexivity | ].
      simpl. split; [reflexivity | ]. rewrite length_app. simpl. lia. }
  destruct Hfirst as (r & p1 & Hcall & Hcache1 & Hlive1).
  exists r, p1. split; [exact Hcall | ].
  intros p2 Hsteps.
  destruct (steps_keep_instance p1 p2 r Hsteps Hcache1 Hlive1) as [Hcache2 Hlive2].
  split; [apply Singleton___call___cached, Hcache2 | ].
  destruct (nth_error (heap p2) r) as [c | ] eqn:Hc.
  2:{ apply nth_error_None in Hc. lia. }
  exists c. split; [exact Hc | ].
  intros op. unfold call_method, deref. rewrite Hc.
  eexists. eexists. split; [reflexivity | ]. simpl. repeat split.
  - apply Singleton___call___cached. exact Hcache2.
  - apply store_lookup, Hlive2.
Qed.

(** *** Further properties of the accessors *)

(** X1: a pair that holds a NaN is never accepted: with both elements numbers
    and one of them NaN, the assertion of the [bounds] setter fails and
    nothing is written. *)
Theorem bounds_setter_rejects_nan :
  forall (w : World) (b : Number),
    bounds_setter (Some (PyFloat S754_nan), Some b) w
      = (Raised AssertionError, w) /\
    bounds_setter (Some b, Some (PyFloat S754_nan)) w
      = (Raised AssertionError, w).
Proof.
  intros w b. split; apply bounds_setter_asserts_le.
  - apply nan_unordered.
  - destruct b as [z | f]; unfold py_le; simpl; [reflexivity | ].
    destruct f; reflexivity.
Qed.

(** X14: a successful [solver] assignment changes the stored solver and
    nothing else. *)
Theorem solver_setter_frame :
  forall (value : PyObject) (w w' : World),
    solver_setter value w = (Returned tt, w') ->
    tolerance (self w') = tolerance (self w) /\
    lower_bound (self w') = lower_bound (self w) /\
    upper_bound (self w') = upper_bound (self w) /\
    processes (self w') = processes (self w) /\
    logged w' = logged w.
Proof.
  intros value w w' H.
  destruct (solver_setter_outcomes value w)
    as [(interface & Hok & _) | (e & Hfail & _)].
  - rewrite Hok in H. inversion H. simpl. repeat split.
  - rewrite Hfail in H. discriminate H.
Qed.

(** *** Bounds: edge values, round trip, frame, composition *)

Lemma num_compare_refl :
  forall x, is_nan x = false -> num_compare x x = Some Eq.
Proof.
  intros [z | f] Hnan; simpl.
  - now rewrite Z.compare_refl.
  - destruct f as [s | s | | s m e]; simpl in *.
    + reflexivity.
    + destruct s; reflexivity.
    + discriminate Hnan.
    + rewrite Z.compare_refl.
      assert (K : Pos.compare_cont Eq m m = Eq) by apply Pos.compare_cont_refl.
      destruct s; f_equal; [ | exact K].
      change (CompOpp (Pos.compare_cont Eq m m) = Eq). now rewrite K.
Qed.

Lemma neg_inf_le :
  forall x, is_nan x = false -> py_le (PyFloat float_neg_inf) x = true.
Proof.
  intros [z | f] Hnan; unfold py_le; simpl.
  - reflexivity.
  - destruct f as [s | s | | s m e]; simpl in *;
      try reflexivity; try discriminate Hnan.
    destruct s; reflexivity.
Qed.

Lemma le_inf :
  forall x, is_nan x = false -> py_le x (PyFloat float_inf) = true.
Proof.
  intros [z | f] Hnan; unfold py_le; simpl.
  - reflexivity.
  - destruct f as [s | s | | s m e]; simpl in *;
      try reflexivity; try discriminate Hnan.
    destruct s; reflexivity.
Qed.

Lemma bounds_setter_on_ordered :
  forall w lo hi,
    py_le lo hi = true ->
    bounds_setter (Some lo, Some hi) w =
    (Returned tt,
     mkWorld (mkConfiguration (_solver (self w)) (tolerance (self w))
                (Some lo) (Some hi) (processes (self w)))
             (logged w)).
Proof.
  intros w lo hi Hle. unfold bounds_setter, bind, py_assert.
  rewrite Hle. reflexivity.
Qed.

(** X2: a degenerate interval is accepted: for every number [x] that is
    not a NaN, [bounds = (x, x)] succeeds and the getter returns [(x, x)]. *)
Theorem bounds_setter_accepts_equal_bounds :
  forall (w : World) (x : Number),
    is_nan x = false ->
    exists w',
      bounds_setter (Some x, Some x) w = (Returned tt, w') /\
      bounds_getter w' = (Returned (Some x, Some x), w').
Proof.
  intros w x Hnan. eexists. split.
  - apply bounds_setter_on_ordered. unfold py_le.
    now rewrite (num_compare_refl x Hnan).
  - reflexivity.
Qed.

(** X3: infinite bounds are accepted: for every number [x] that is not a
    NaN, [bounds = (-inf, x)] and [bounds = (x, inf)] succeed and are read
    back unchanged. *)
Theorem bounds_setter_accepts_infinite_bounds :
  forall (w : World) (x : Number),
    is_nan x = false ->
    (exists w',
        bounds_setter (Some (PyFloat float_neg_inf), Some x) w
          = (Returned tt, w') /\
        bounds_getter w'
          = (Returned (Some (PyFloat float_neg_inf), Some x), w')) /\
    (exists w',
        bounds_setter (Some x, Some (PyFloat float_inf)) w
          = (Returned tt, w') /\
        bounds_getter w'
          = (Returned (Some x, Some (PyFloat float_inf)), w')).
Proof.
  intros w x Hnan. split; eexists.
  - split; [apply bounds_setter_on_ordered, neg_inf_le, Hnan | reflexivity].
  - split; [apply bounds_setter_on_ordered, le_inf, Hnan | reflexivity].
Qed.

(** X4: writing back what the getter returns, [config.bounds =
    config.bounds], succeeds and changes nothing exactly when the current
    bounds are ordered; when they are not (after a plain assignment to one
    of the two attributes) it raises [AssertionError], again changing
    nothing. *)
Theorem bounds_reassignment :
  forall (w : World),
    bounds_getter w
      = (Returned (lower_bound (self w), upper_bound (self w)), w) /\
    (bounds_ordered (self w) ->
     bounds_setter (lower_bound (self w), upper_bound (self w)) w
       = (Returned tt, w)) /\
    (~ bounds_ordered (self w) ->
     bounds_setter (lower_bound (self w), upper_bound (self w)) w
       = (Raised AssertionError, w)).
Proof.
  intros [[s t lo hi p] l]. unfold bounds_ordered. simpl.
  split; [reflexivity | ].
  unfold bounds_setter, bind, py_assert, set_lower_bound, set_upper_bound,
    update, ret.
  destruct lo as [a | ], hi as [b | ]; simpl.
  - destruct (py_le a b); simpl; split; intros H;
      solve [reflexivity | discriminate H | exfalso; apply H; reflexivity].
  - split; intros H; [reflexivity | exfalso; apply H; exact I].
  - split; intros H; [reflexivity | exfalso; apply H; exact I].
  - split; intros H; [reflexivity | exfalso; apply H; exact I].
Qed.

Lemma bounds_setter_untouched :
  forall (bounds : option Number * option Number) (w : World),
    _solver (self (snd (bounds_setter bounds w))) = _solver (self w) /\
    tolerance (self (snd (bounds_setter bounds w))) = tolerance (self w) /\
    processes (self (snd (bounds_setter bounds w))) = processes (self w) /\
    logged (snd (bounds_setter bounds w)) = logged w.
Proof.
  intros [[lo | ] [hi | ]] w;
    unfold bounds_setter, bind, py_assert, set_lower_bound, set_upper_bound,
      update, ret; simpl; try (repeat split; reflexivity).
  destruct (py_le lo hi); simpl; repeat split.
Qed.

(** X5: whether it returns or raises, a [bounds] assignment never touches
    the stored solver, [tolerance], [processes] or the log. *)
Theorem bounds_setter_frame :
  forall (bounds : option Number * option Number) (w : World),
    _solver (self (snd (bounds_setter bounds w))) = _solver (self w) /\
    tolerance (self (snd (bounds_setter bounds w))) = tolerance (self w) /\
    processes (self (snd (bounds_setter bounds w))) = processes (self w) /\
    logged (snd (bounds_setter bounds w)) = logged w.
Proof. exact bounds_setter_untouched. Qed.

(** X6: the last assignment wins: when two [bounds] assignments in a row
    both succeed, the state is the one the second assignment alone would
    have produced. *)
Theorem bounds_setter_last_wins :
  forall (b1 b2 : option Number * option Number) (w w1 w2 : World),
    bounds_setter b1 w = (Returned tt, w1) ->
    bounds_setter b2 w1 = (Returned tt, w2) ->
    bounds_setter b2 w = (Returned tt, w2).
Proof.
  intros b1 b2 w w1 w2 H1 H2.
  destruct (bounds_setter_untouched b1 w) as (Hs & Ht & Hp & Hl).
  rewrite H1 in Hs, Ht, Hp, Hl. simpl in Hs, Ht, Hp, Hl.
  revert H2. destruct b2 as [[lo | ] [hi | ]];
    unfold bounds_setter, bind, py_assert, set_lower_bound, set_upper_bound,
      update, ret; simpl;
    try (destruct (py_le lo hi); simpl; [ | discriminate]);
    intros H2; inversion H2; subst w2; simpl;
    rewrite Hs, Ht, Hp, Hl; reflexivity.
Qed.

(** *** Solver: messages, stored values, equivalent assignments *)


Lemma first_registered_in_registry :
  forall names interface,
    first_registered names = Some interface ->
    exists name, dict_getitem SOLVERS name = Some interface.
Proof.
  induction names as [ | name rest IH]; intros interface; simpl.
  - discriminate.
  - destruct (dict_getitem SOLVERS name) as [i | ] eqn:E.
    + intros H. inversion H. subst i. exists name. exact E.
    + apply IH.
Qed.

(** X8: the stored solver is always [None], an interface of the registry
    or a module that offers a [Model]: a construction establishes this and
    every operation keeps it, whether it returns or raises. *)
Theorem stored_solver_admissible :
  (forall w, solver_admissible (_solver (self (snd (__init__ [] w))))) /\
  (forall op w,
      solver_admissible (_solver (self w)) ->
      solver_admissible (_solver (self (snd (run op w))))).
Proof.
  assert (Hdefault : forall names prior,
             solver_admissible prior ->
             solver_admissible
               (match first_registered names with
                | Some interface => interface
                | None => prior
                end)).
  { intros names prior Hprior.
    destruct (first_registered names) as [i | ] eqn:E; [ | exact Hprior].
    right. left. apply (first_registered_in_registry names i E). }
  assert (Hinit : forall w, solver_admissible (_solver (self (snd (__init__ [] w))))).
  { intros w. rewrite __init___result. unfold constructed.
    cbn [snd self _solver].
    apply (Hdefault ["gurobi"; "cplex"; "glpk"] PyNone). left. reflexivity. }
  split; [exact Hinit | ].
  intros op w Hadm.
  destruct op as [ | value | | bounds | kwargs | | | | | v | v | v | v];
    simpl run; try exact Hadm.
  - destruct (solver_setter_outcomes value w)
      as [(interface & -> & [(name & _ & E) | (-> & Hmod & Hattr)])
         | (e & -> & _)]; simpl.
    + right. left. exists name. exact E.
    + right. right. split; assumption.
    + exact Hadm.
  - destruct (bounds_setter_untouched bounds w) as [-> _]. exact Hadm.
  - destruct kwargs as [ | kv kwargs]; [apply Hinit | exact Hadm].
  - unfold _set_default_solver. rewrite for_name_in_result.
    specialize (Hdefault ["gurobi"; "cplex"; "glpk"] (_solver (self w)) Hadm).
    destruct (first_registered _); exact Hdefault.
  - rewrite _set_default_processes_result. exact Hadm.
  - unfold bind. destruct (representations_change_nothing w) as [E _].
    destruct (__repr__ w) as [[s | e] w0]; simpl in *; subst w0; exact Hadm.
  - unfold bind. destruct (representations_change_nothing w) as [_ E].
    destruct (_repr_html_ w) as [[s | e] w0]; simpl in *; subst w0; exact Hadm.
Qed.

(** X9: assigning a registered name and assigning the module registered
    for it are the same operation: when the registry maps [name] to a
    module that offers a [Model] and whose [str] returns, [solver = name]
    and [solver = module] end in the same state. *)
Theorem solver_setter_name_or_module :
  forall (name text : string) (interface : PyObject) (w : World),
    dict_getitem SOLVERS name = Some interface ->
    isinstance_ModuleType interface = true ->
    hasattr interface "Model" = true ->
    py_str interface = Returned text ->
    solver_setter (PyStr name) w = solver_setter interface w /\
    solver_getter (snd (solver_setter interface w))
      = (Returned interface, snd (solver_setter interface w)).
Proof.
  intros name text interface w Hget Hmod Hattr Hstr.
  rewrite (solver_setter_str_returns (PyStr name) w name eq_refl).
  rewrite (solver_setter_str_returns interface w text Hstr).
  rewrite Hget.
  destruct interface as [ | s | m | o]; try discriminate Hmod.
  rewrite Hattr. split; reflexivity.
Qed.

(** *** Defaults and construction *)

(** X10: from any state [_set_default_processes] returns normally and
    leaves [processes] a number, never [None], whatever it held before:
    [n - 1] when [cpu_count()] is [n > 1], [n] itself when [n <= 1], and [1]
    when it is [None]; the other attributes are untouched, and running it
    again gives the same attributes. *)
Theorem _set_default_processes_overrides :
  forall (w : World),
    exists w',
      _set_default_processes w = (Returned tt, w') /\
      processes (self w')
        = Some (match cpu_count with
                | Some n => if 1 <? n then n - 1 else n
                | None => 1
                end) /\
      _solver (self w') = _solver (self w) /\
      tolerance (self w') = tolerance (self w) /\
      lower_bound (self w') = lower_bound (self w) /\
      upper_bound (self w') = upper_bound (self w) /\
      self (snd (_set_default_processes w')) = self w'.
Proof.
  intros w. eexists. split; [apply _set_default_processes_result | ].
  rewrite _set_default_processes_result. simpl. repeat split.
Qed.

(** X11: the two representations never change the object or the log; each
    raises exactly when [interface_to_str] raises on the stored solver,
    with that exception, and returns a string otherwise. *)
Theorem representations_are_read_only :
  forall (w : World),
    match interface_to_str (_solver (self w)) with
    | Raised e =>
        __repr__ w = (Raised e, w) /\ _repr_html_ w = (Raised e, w)
    | Returned _ =>
        exists text html,
          __repr__ w = (Returned text, w) /\
          _repr_html_ w = (Returned html, w)
    end.
Proof.
  intros w. unfold __repr__, _repr_html_, bind, solver_getter, getattr. simpl.
  destruct (interface_to_str (_solver (self w))).
  - eexists. eexists. split; reflexivity.
  - split; reflexivity.
Qed.

(** X12: what a construction does depends on its keyword arguments only.
    Given any keyword argument it raises [TypeError] before a single
    attribute is assigned; given none it returns normally and reads
    nothing of the object it initialises: on any two objects it leaves the
    same attributes, so running [__init__] on a customised configuration
    resets every setting. *)
Theorem __init___outcome :
  forall (kwargs : dict PyObject) (w1 w2 : World),
    match kwargs with
    | [] =>
        fst (__init__ [] w1) = Returned tt /\
        self (snd (__init__ [] w1)) = self (snd (__init__ [] w2))
    | _ :: _ =>
        exists message, __init__ kwargs w1 = (Raised (TypeError message), w1)
    end.
Proof.
  intros [ | kv kwargs] w1 w2.
  - rewrite !__init___result. simpl. split; reflexivity.
  - eexists. reflexivity.
Qed.

(** *** The two setters together *)

(** X13: the two setters are independent: assigning [bounds] then [solver]
    leaves the same state as assigning [solver] then [bounds], whichever
    of the two assignments returns or raises, and each of them returns or
    raises the same in either order. *)
Theorem setters_commute :
  forall (bounds : option Number * option Number) (value : PyObject)
         (w : World),
    snd (solver_setter value (snd (bounds_setter bounds w)))
      = snd (bounds_setter bounds (snd (solver_setter value w))) /\
    fst (solver_setter value (snd (bounds_setter bounds w)))
      = fst (solver_setter value w) /\
    fst (bounds_setter bounds (snd (solver_setter value w)))
      = fst (bounds_setter bounds w).
Proof.
  intros bounds value w. rewrite !solver_setter_cases.
  assert (Hb : forall u,
             bounds_setter bounds u =
             match bounds with
             | (Some lo, Some hi) =>
                 if py_le lo hi
                 then (Returned tt,
                       mkWorld (mkConfiguration (_solver (self u))
                                  (tolerance (self u)) (Some lo) (Some hi)
                                  (processes (self u))) (logged u))
                 else (Raised AssertionError, u)
             | (lo, hi) =>
                 (Returned tt,
                  mkWorld (mkConfiguration (_solver (self u))
                             (tolerance (self u)) lo hi
                             (processes (self u))) (logged u))
             end).
  { intros u. destruct bounds as [[lo | ] [hi | ]];
      unfold bounds_setter, bind, py_assert, set_lower_bound,
        set_upper_bound, update, ret; simpl; try reflexivity.
    destruct (py_le lo hi); reflexivity. }
  rewrite !Hb.
  destruct (py_str value) as [text | e0];
    [ destruct value as [ | name | m | o]; simpl;
      try destruct (dict_getitem SOLVERS name);
      try destruct (has_name "Model" (module_attrs m)) | ];
    destruct bounds as [[lo | ] [hi | ]]; simpl;
    try destruct (py_le lo hi); simpl; repeat split.
Qed.

End ConfigurationClass.

(** ** The properties at work on the sample environment *)

(** The default pair is ordered, so the [bounds] setter takes it. *)
Lemma bounds_setter_accepts_default_pair :
  py_le (PyFloat float_neg_1000) (PyFloat float_1000) = true /\
  exists w',
    bounds_setter (Some (PyFloat float_neg_1000), Some (PyFloat float_1000))
      fresh_world = (Returned tt, w') /\
    bounds_getter w'
      = (Returned (Some (PyFloat float_neg_1000), Some (PyFloat float_1000)), w') /\
    getattr lower_bound w' = (Returned (Some (PyFloat float_neg_1000)), w') /\
    getattr upper_bound w' = (Returned (Some (PyFloat float_1000)), w').
Proof.
  split; [reflexivity | ].
  apply (bounds_setter_accepts_ordered_pair fresh_world
           (Some (PyFloat float_neg_1000)) (Some (PyFloat float_1000))).
  reflexivity.
Defined.

(** [bounds = 1000.0, -1000.0] is refused. *)
Lemma bounds_setter_rejects_swapped_defaults :
  py_gt (PyFloat float_1000) (PyFloat float_neg_1000) = true /\
  bounds_setter (Some (PyFloat float_1000), Some (PyFloat float_neg_1000))
    fresh_world = (Raised AssertionError, fresh_world).
Proof.
  split; [reflexivity | ].
  apply (bounds_setter_rejects_inverted_pair fresh_world
           (PyFloat float_1000) (PyFloat float_neg_1000)).
  reflexivity.
Defined.

(** [solver = "glpk"] stores the GLPK interface. *)
Lemma solver_setter_resolves_glpk :
  In "glpk" (dict_keys sample_SOLVERS) /\
  exists interface w',
    dict_getitem sample_SOLVERS "glpk" = Some interface /\
    solver_setter sample_SOLVERS (PyStr "glpk") fresh_world = (Returned tt, w') /\
    solver_getter w' = (Returned interface, w').
Proof.
  assert (Hkey : In "glpk" (dict_keys sample_SOLVERS)) by (simpl; left; reflexivity).
  split; [exact Hkey | ].
  exact (solver_setter_resolves_registered_name sample_SOLVERS fresh_world
           "glpk" Hkey).
Defined.

(** [solver = "scip"] is refused, and the message lists both names. *)
Lemma solver_setter_rejects_scip :
  ~ In "scip" (dict_keys sample_SOLVERS) /\
  exists message,
    solver_setter sample_SOLVERS (PyStr "scip") fresh_world
      = (Raised (SolverNotFound message), fresh_world) /\
    message = "'" ++ "scip" ++ "' is not a valid solver interface. "
                  ++ " Please pick one from "
                  ++ join ", " (dict_keys sample_SOLVERS) ++ "." /\
    Contains message "scip" /\
    forall name, In name (dict_keys sample_SOLVERS) -> Contains message name.
Proof.
  assert (Hkey : ~ In "scip" (dict_keys sample_SOLVERS)).
  { simpl. intros [H | [H | []]]; discriminate H. }
  split; [exact Hkey | ].
  exact (solver_setter_rejects_unregistered_name sample_SOLVERS fresh_world
           "scip" Hkey).
Defined.

(** The refused assignment leaves the object as it was. *)
Lemma solver_setter_failure_on_scip :
  solver_setter sample_SOLVERS (PyStr "scip") fresh_world
    = (Raised (SolverNotFound
         "'scip' is not a valid solver interface.  Please pick one from glpk, glpk_exact."),
       fresh_world) /\
  fresh_world = fresh_world /\
  (forall text,
      py_str (PyStr "scip") = Returned text ->
      SolverNotFound
        "'scip' is not a valid solver interface.  Please pick one from glpk, glpk_exact."
      = not_valid_interface sample_SOLVERS text) /\
  (forall e0,
      py_str (PyStr "scip") = Raised e0 ->
      SolverNotFound
        "'scip' is not a valid solver interface.  Please pick one from glpk, glpk_exact."
      = e0).
Proof.
  split; [reflexivity | ].
  apply (solver_setter_failure_changes_nothing sample_SOLVERS (PyStr "scip")
           fresh_world fresh_world).
  reflexivity.
Defined.

(** An object whose [str] raises is refused with that exception, [Model]
    attribute or not, and nothing is stored. *)
Lemma solver_setter_on_unprintable_instance :
  hasattr (PyInstance unprintable_instance) "Model" = true /\
  solver_setter sample_SOLVERS (PyInstance unprintable_instance) fresh_world
    = (Raised (TypeError "__str__ returned non-string (type int)"),
       fresh_world).
Proof. split; reflexivity. Qed.


(** A default construction on a machine with four cores. *)
Lemma default_construction_on_four_cores :
  exists w',
    __init__ sample_SOLVERS (Some 4) [] fresh_world = (Returned tt, w') /\
    tolerance (self w') = PyFloat float_1e_07 /\
    bounds_getter w'
      = (Returned (Some (PyFloat float_neg_1000), Some (PyFloat float_1000)), w') /\
    processes (self w') = Some 3 /\
    logged w' = [].
Proof.
  destruct (default_construction sample_SOLVERS (Some 4) fresh_world)
    as (w' & Hinit & Htol & Hbounds & _ & Hmany & _ & _ & Hlog).
  - simpl. lia.
  - exists w'. repeat split; try assumption.
    + apply (Hmany 4); [reflexivity | lia].
    + apply Hlog. discriminate.
Defined.

(** C8, as the claim states it, fails on the code: [lower_bound] is a
    plain attribute, and assigning [2000.0] to it on a freshly constructed
    configuration succeeds and leaves [lower_bound > upper_bound]. *)
Lemma plain_assignment_breaks_bounds_order :
  let run_sample :=
    run sample_SOLVERS (Some 4) sample_interface_to_str (fun s => s)
      sample_str_number in
  let w := snd (__init__ sample_SOLVERS (Some 4) [] fresh_world) in
  let w' := snd (run_sample (Assign_lower_bound (Some (PyFloat float_2000))) w) in
  fst (__init__ sample_SOLVERS (Some 4) [] fresh_world) = Returned tt /\
  bounds_ordered (self w) /\
  fst (run_sample (Assign_lower_bound (Some (PyFloat float_2000))) w)
    = Returned tt /\
  bounds_getter w'
    = (Returned (Some (PyFloat float_2000), Some (PyFloat float_1000)), w') /\
  py_gt (PyFloat float_2000) (PyFloat float_1000) = true /\
  ~ bounds_ordered (self w').
Proof.
  simpl. repeat split. intros H. discriminate H.
Qed.

(** Two calls in a fresh process give the same reference, and the second
    constructs nothing. *)
Lemma singleton_twice_from_boot :
  exists r p1,
    Singleton___call__ sample_SOLVERS (Some 4) [] boot = (Returned r, p1) /\
    Singleton___call__ sample_SOLVERS (Some 4) [] p1 = (Returned r, p1).
Proof.
  destruct (singleton_returns_shared_instance sample_SOLVERS (Some 4)
              sample_interface_to_str (fun s => s) sample_str_number boot)
    as (r & p1 & Hfirst & Hlater).
  - apply rt_refl.
  - exists r, p1. split; [exact Hfirst | ].
    apply (Hlater p1). apply rt_refl.
Defined.

(** Assigning the GLPK module itself changes only the stored solver. *)
Lemma solver_setter_frame_on_glpk_module :
  let w' := snd (solver_setter sample_SOLVERS (PyModule glpk_interface)
                   fresh_world) in
  solver_setter sample_SOLVERS (PyModule glpk_interface) fresh_world
    = (Returned tt, w') /\
  _solver (self w') = PyModule glpk_interface /\
  tolerance (self w') = tolerance (self fresh_world) /\
  lower_bound (self w') = lower_bound (self fresh_world) /\
  upper_bound (self w') = upper_bound (self fresh_world) /\
  processes (self w') = processes (self fresh_world) /\
  logged w' = logged fresh_world.
Proof.
  split; [reflexivity | ]. split; [reflexivity | ].
  apply (solver_setter_frame sample_SOLVERS (PyModule glpk_interface)
           fresh_world).
  reflexivity.
Defined.

(** X15: with an empty registry (no solver installed) a default
    construction still returns normally, with the solver unset, and every
    name is refused with a message whose list of names is empty. *)
Theorem empty_registry :
  forall (cores : option Z) (name : string) (w : World),
    (exists w',
        __init__ [] cores [] w = (Returned tt, w') /\
        solver_getter w' = (Returned PyNone, w')) /\
    solver_setter [] (PyStr name) w
      = (Raised (SolverNotFound
           ("'" ++ name
                ++ "' is not a valid solver interface.  Please pick one from .")),
         w).
Proof.
  intros cores name w. split.
  - eexists. split; [apply __init___result | reflexivity].
  - unfold solver_setter, bind, not_valid_interface. simpl.
    repeat f_equal.
Qed.

(** [bounds = 0, 0] is accepted. *)
Lemma bounds_setter_accepts_zero_zero :
  exists w',
    bounds_setter (Some (PyInt 0), Some (PyInt 0)) fresh_world
      = (Returned tt, w') /\
    bounds_getter w' = (Returned (Some (PyInt 0), Some (PyInt 0)), w').
Proof.
  apply (bounds_setter_accepts_equal_bounds fresh_world (PyInt 0)).
  reflexivity.
Defined.

(** [bounds = -inf, 1000.0] and [bounds = 1000.0, inf] are accepted. *)
Lemma bounds_setter_accepts_half_lines :
  (exists w',
      bounds_setter (Some (PyFloat float_neg_inf), Some (PyFloat float_1000))
        fresh_world = (Returned tt, w') /\
      bounds_getter w'
        = (Returned (Some (PyFloat float_neg_inf), Some (PyFloat float_1000)),
           w')) /\
  (exists w',
      bounds_setter (Some (PyFloat float_1000), Some (PyFloat float_inf))
        fresh_world = (Returned tt, w') /\
      bounds_getter w'
        = (Returned (Some (PyFloat float_1000), Some (PyFloat float_inf)), w')).
Proof.
  apply (bounds_setter_accepts_infinite_bounds fresh_world (PyFloat float_1000)).
  reflexivity.
Defined.

(** The default pair, then [(None, 2000.0)]: only the second remains. *)
Lemma bounds_setter_last_wins_on_defaults :
  bounds_setter (None, Some (PyFloat float_2000)) fresh_world
    = (Returned tt,
       snd (bounds_setter (None, Some (PyFloat float_2000))
              (snd (bounds_setter
                      (Some (PyFloat float_neg_1000), Some (PyFloat float_1000))
                      fresh_world)))).
Proof.
  apply (bounds_setter_last_wins
           (Some (PyFloat float_neg_1000), Some (PyFloat float_1000))
           (None, Some (PyFloat float_2000))
           fresh_world
           (snd (bounds_setter
                   (Some (PyFloat float_neg_1000), Some (PyFloat float_1000))
                   fresh_world))).
  - reflexivity.
  - reflexivity.
Defined.


(** [solver = "glpk"] and [solver = optlang.glpk_interface] agree. *)
Lemma solver_setter_glpk_name_or_module :
  solver_setter sample_SOLVERS (PyStr "glpk") fresh_world
    = solver_setter sample_SOLVERS (PyModule glpk_interface) fresh_world /\
  solver_getter
    (snd (solver_setter sample_SOLVERS (PyModule glpk_interface) fresh_world))
    = (Returned (PyModule glpk_interface),
       snd (solver_setter sample_SOLVERS (PyModule glpk_interface) fresh_world)).
Proof.
  apply (solver_setter_name_or_module sample_SOLVERS "glpk"
           "<module 'optlang.glpk_interface'>"
           (PyModule glpk_interface) fresh_world); reflexivity.
Defined.
